(** * timep: the [clock_gettime] loadable builtin (LOADABLES/SRC/timep.c)

    A shallow embedding of [clock_gettime_main] and of the dispatcher
    [timep_builtin].  The host shell (bash) is represented by a [world]
    record: what was written to standard output, the messages passed to
    [builtin_error] (the diagnostic channel), the variable table written by
    [bind_variable], and two counters: how often the process CPU-time clock
    was read and how often the argument vector built by
    [make_builtin_argv] was passed to [xfree].

    The clock itself is an oracle: [platform] says whether
    [CLOCK_PROCESS_CPUTIME_ID] is defined at build time and, if it is, what
    the [clock_gettime] system call reports.

    [int64_t] arithmetic is written with its two's-complement wrap-around
    (what the compiled code computes on a 64-bit target); in ISO C a signed
    overflow is undefined, so no theorem below relies on the wrapped value
    outside the 64-bit range except the counterexamples, which only show
    that the exact value is not obtained there. *)

From Stdlib Require Import ZArith Bool List Ascii String Lia.
Import ListNotations.

Open Scope string_scope.
Open Scope Z_scope.

(** ** 64-bit signed integers *)

Definition INT64_MIN : Z := - 2 ^ 63.
Definition INT64_MAX : Z := 2 ^ 63 - 1.

Definition in_int64 (z : Z) : bool := (INT64_MIN <=? z) && (z <=? INT64_MAX).

(** Reduction into [INT64_MIN, INT64_MAX] modulo 2^64. *)
Definition wrap64 (z : Z) : Z := (z + 2 ^ 63) mod 2 ^ 64 - 2 ^ 63.

Definition i64_mul (a b : Z) : Z := wrap64 (a * b).
Definition i64_add (a b : Z) : Z := wrap64 (a + b).

(** C division of [long] values: truncation toward zero. *)
Definition c_div (a b : Z) : Z := Z.quot a b.

(** ** The data read from the clock *)

(** [struct timespec]: [tv_sec] is a 64-bit [time_t], [tv_nsec] a [long]. *)
Record timespec := mk_timespec { tv_sec : Z; tv_nsec : Z }.

(** Result of [clock_gettime(CLOCK_PROCESS_CPUTIME_ID, &ts)]: either 0 with
    [ts] filled, or non-zero with [errno] set; [ClockFail] carries
    [strerror(errno)]. *)
Inductive clock_result :=
| ClockOk (ts : timespec)
| ClockFail (strerror_errno : string).

(** [#if defined(CLOCK_PROCESS_CPUTIME_ID)] *)
Inductive platform :=
| NoProcessCpuClock
| ProcessCpuClock (r : clock_result).

(** ** The host shell *)

Record world := mk_world {
  w_stdout : string;                  (* bytes written to standard output *)
  w_stderr : list string;             (* messages given to builtin_error *)
  w_vars : list (string * string);    (* variable table, newest binding first *)
  w_clock_reads : nat;                (* calls of clock_gettime(2) *)
  w_argv_frees : nat                  (* xfree(argv) calls *)
}.

Fixpoint var_lookup (name : string) (vars : list (string * string)) : option string :=
  match vars with
  | [] => None
  | (n, v) :: rest => if String.eqb n name then Some v else var_lookup name rest
  end.

(** A small state monad over [world]. *)
Definition M (A : Type) : Type := world -> A * world.

Definition ret {A} (a : A) : M A := fun w => (a, w).
Definition bind {A B} (m : M A) (k : A -> M B) : M B :=
  fun w => let (a, w') := m w in k a w'.

Notation "x <- m ;; k" := (bind m (fun x => k))
  (at level 61, m at next level, right associativity).
Notation "m ;; k" := (bind m (fun _ => k))
  (at level 61, right associativity).

Definition modify (f : world -> world) : M unit := fun w => (tt, f w).

(** [builtin_error (fmt, ...)]: print a diagnostic on stderr. *)
Definition builtin_error (msg : string) : M unit :=
  modify (fun w => mk_world (w_stdout w) (app (w_stderr w) [msg]) (w_vars w)
                            (w_clock_reads w) (w_argv_frees w)).

(** [printf] on standard output (its return value is ignored by the code). *)
Definition printf (s : string) : M unit :=
  modify (fun w => mk_world (w_stdout w ++ s) (w_stderr w) (w_vars w)
                            (w_clock_reads w) (w_argv_frees w)).

(** [bind_variable (name, value, 0)]: the host's [bind(name, value)]
    interface, which stores [value] under [name]. *)
Definition bind_variable (name value : string) : M unit :=
  modify (fun w => mk_world (w_stdout w) (w_stderr w) ((name, value) :: w_vars w)
                            (w_clock_reads w) (w_argv_frees w)).

(** [xfree (argv)] *)
Definition xfree_argv : M unit :=
  modify (fun w => mk_world (w_stdout w) (w_stderr w) (w_vars w)
                            (w_clock_reads w) (S (w_argv_frees w))).

(** The system call [clock_gettime(CLOCK_PROCESS_CPUTIME_ID, &ts)]. *)
Definition sys_clock_gettime (r : clock_result) : M clock_result :=
  modify (fun w => mk_world (w_stdout w) (w_stderr w) (w_vars w)
                            (S (w_clock_reads w)) (w_argv_frees w));;
  ret r.

(** ** [%lld] formatting, as libc's integer conversion does it *)

Definition digit_char (d : Z) : ascii := ascii_of_nat (48 + Z.to_nat d).

(** The conversion loop: emit [v % 10] in front of what is already
    converted, continue with [v / 10] while it is non-zero.  The fuel is a
    bound on the number of decimal digits. *)
Fixpoint utoa (fuel : nat) (v : Z) (acc : string) : string :=
  match fuel with
  | O => acc
  | S f =>
      let acc' := String (digit_char (v mod 10)) acc in
      if v <? 10 then acc' else utoa f (v / 10) acc'
  end.

(** Decimal digits of [v >= 0]: a number has no more decimal digits than
    binary ones. *)
Definition udigits (v : Z) : string := utoa (S (Z.to_nat (Z.log2 v))) v "".

Definition lld (z : Z) : string :=
  if z <? 0 then String "-" (udigits (- z)) else udigits z.

(** [snprintf (buf, size, ...)]: the buffer receives at most [size - 1]
    characters of the formatted text, then the terminator. *)
Definition snprintf (size : nat) (s : string) : string :=
  substring 0 (Nat.pred size) s.

(** ** Reading a decimal string back (strtoll on a whole string) *)

Definition is_digit (c : ascii) : bool :=
  (48 <=? nat_of_ascii c)%nat && (nat_of_ascii c <=? 57)%nat.

Definition digit_val (c : ascii) : Z := Z.of_nat (nat_of_ascii c) - 48.

Fixpoint parse_digits (s : string) (acc : Z) : option Z :=
  match s with
  | EmptyString => Some acc
  | String c s' => if is_digit c then parse_digits s' (acc * 10 + digit_val c) else None
  end.

Definition parse_lld (s : string) : option Z :=
  let '(neg, body) :=
    match s with
    | String c r => if Ascii.eqb c "-"%char then (true, r) else (false, s)
    | EmptyString => (false, s)
    end in
  match body with
  | EmptyString => None
  | _ =>
      match parse_digits body 0 with
      | Some v =>
          let z := if neg then - v else v in
          if in_int64 z then Some z else None
      | None => None
      end
  end.

(** A non-empty string of the digits 0-9 only: a non-negative decimal
    integer. *)
Fixpoint all_digits (s : string) : bool :=
  match s with
  | EmptyString => true
  | String c s' => is_digit c && all_digits s'
  end.

Definition is_decimal_nonneg (s : string) : bool :=
  match s with
  | EmptyString => false
  | _ => all_digits s
  end.

(** ** [clock_gettime_main] *)

Definition EXECUTION_SUCCESS : Z := 0.
Definition EXECUTION_FAILURE : Z := 1.

(** [argv[i][0]]: the first character, or the terminator of [""]. *)
Definition first_char (s : string) : ascii :=
  match s with
  | EmptyString => "000"%char
  | String c _ => c
  end.

(** The exact value of [ts.tv_sec * 1000000LL + ts.tv_nsec / 1000]. *)
Definition exact_micros (ts : timespec) : Z :=
  tv_sec ts * 1000000 + c_div (tv_nsec ts) 1000.

(** [ts.tv_sec * 1000000LL + ts.tv_nsec / 1000] as [int64_t]. *)
Definition micros_of (ts : timespec) : Z :=
  i64_add (i64_mul (tv_sec ts) 1000000) (c_div (tv_nsec ts) 1000).

(** [char * varname = NULL; if (argc == 2 && argv[1][0] != '\0')
    varname = argv[1];] *)
Definition varname_of (argc : nat) (argv : list string) : option string :=
  if (argc =? 2)%nat && negb (Ascii.eqb (first_char (nth 1 argv "")) "000"%char)
  then Some (nth 1 argv "") else None.

(** A C string: its bytes up to (excluding) the terminator, so no NUL. *)
Fixpoint is_c_string (s : string) : bool :=
  match s with
  | EmptyString => true
  | String c s' => negb (Ascii.eqb c "000"%char) && is_c_string s'
  end.

Definition newline : string := String "010"%char EmptyString.

Definition clock_gettime_main (plat : platform) (argc : nat) (argv : list string) : M Z :=
  if (2 <? argc)%nat then
    builtin_error "clock_gettime: too many arguments";;
    ret EXECUTION_FAILURE
  else
    let varname := varname_of argc argv in
    match plat with
    | ProcessCpuClock r =>
        res <- sys_clock_gettime r;;
        match res with
        | ClockFail err =>
            builtin_error ("clock_gettime failed: " ++ err);;
            xfree_argv;;
            ret EXECUTION_FAILURE
        | ClockOk ts =>
            let micros := micros_of ts in
            match varname with
            | Some v =>
                let buf_micros := snprintf 32 (lld micros) in
                bind_variable v buf_micros;;
                ret EXECUTION_SUCCESS
            | None =>
                printf (lld micros ++ newline);;
                ret EXECUTION_SUCCESS
            end
        end
    | NoProcessCpuClock =>
        builtin_error "clock_gettime is not supported on this system.";;
        xfree_argv;;
        ret EXECUTION_FAILURE
    end.

(** ** The dispatcher [timep_builtin] *)

(** bash's [make_builtin_argv (list, &argc)]: the words of the command
    after [this_command_name], which becomes [argv[0]] (the source's [WORD_LIST *list]
    is called [words] here). *)
Definition make_builtin_argv (this_command_name : string) (words : list string)
  : list string * nat :=
  (cons this_command_name words, S (List.length words)).

Definition timep_builtin (plat : platform) (this_command_name : string)
  (words : list string) : M Z :=
  let '(argv, argc) := make_builtin_argv this_command_name words in
  let sub := nth 0 argv "" in
  ret_ <- (if String.eqb sub "clock_gettime" then clock_gettime_main plat argc argv
           else builtin_error ("timep: unknown command '" ++ sub ++ "'");;
                ret EXECUTION_FAILURE);;
  xfree_argv;;
  ret ret_.

(** Lexicographic order on clock readings. *)
Definition timespec_le (a b : timespec) : bool :=
  (tv_sec a <? tv_sec b) || ((tv_sec a =? tv_sec b) && (tv_nsec a <=? tv_nsec b)).

(** ** Registration: [clock_gettime_struct] and [setup_builtin_timep] *)

(** bash's [struct builtin]: name, function, flags, long and short
    documentation, handle.  The function is [timep_builtin], parameterised
    here by the build's [platform]. *)
Record builtin := mk_builtin {
  b_name : string;
  b_function : platform -> string -> list string -> M Z;
  b_flags : Z;
  b_long_doc : list string;
  b_short_doc : string;
  b_handle : Z
}.

Definition BUILTIN_ENABLED : Z := 1.

Definition clock_gettime_doc : list string :=
  [""; "USAGE: clock_gettime [<VAR>]"; "";
   "Return high-resolution CPU time used by the current process.";
   "If an argument is passed, use it as the name of a Bash variable to assign the result.";
   "Otherwise, prints the result to stdout."].

Definition clock_gettime_struct : builtin :=
  mk_builtin "clock_gettime" timep_builtin BUILTIN_ENABLED clock_gettime_doc
             "clock_gettime [<VAR>]" 0.

(** The shell's builtin table; the host's [add_builtin (bp, keep)] enters
    [bp] in front of it, and a command name finds the first entry of that
    name. *)
Definition add_builtin (bp : builtin) (table : list builtin) : list builtin := bp :: table.

Fixpoint find_builtin (name : string) (table : list builtin) : option builtin :=
  match table with
  | [] => None
  | b :: rest => if String.eqb (b_name b) name then Some b else find_builtin name rest
  end.

Definition setup_builtin_timep (table : list builtin) : list builtin * Z :=
  (add_builtin clock_gettime_struct table, 0).

(** The shell runs a builtin found under [name] with
    [this_command_name = name]. *)
Definition run_builtin (plat : platform) (table : list builtin) (name : string)
  (words : list string) : option (M Z) :=
  match find_builtin name table with
  | Some b => Some (b_function b plat name words)
  | None => None
  end.

(** Whether the build has [CLOCK_PROCESS_CPUTIME_ID]. *)
Definition has_process_clock (plat : platform) : bool :=
  match plat with
  | NoProcessCpuClock => false
  | ProcessCpuClock _ => true
  end.

Definition empty_world : world := mk_world "" [] [] 0 0.

Example lld_samples :
  lld 0 = "0" /\ lld 7 = "7" /\ lld 1234567 = "1234567" /\ lld (-42) = "-42"
  /\ lld INT64_MIN = "-9223372036854775808".
Proof. vm_compute. repeat split. Qed.

Example run_print :
  timep_builtin (ProcessCpuClock (ClockOk (mk_timespec 3 456789123))) "clock_gettime" [] empty_world
  = (EXECUTION_SUCCESS, mk_world ("3456789" ++ newline) [] [] 1 1).
Proof. vm_compute. reflexivity. Qed.

(** ** Arithmetic of the conversion *)

Lemma wrap64_id z : in_int64 z = true -> wrap64 z = z.
Proof.
  unfold in_int64, wrap64, INT64_MIN, INT64_MAX.
  rewrite andb_true_iff, !Z.leb_le. intros [H1 H2].
  rewrite Z.mod_small by lia. lia.
Qed.

Lemma wrap64_in_range z : in_int64 (wrap64 z) = true.
Proof.
  unfold in_int64, wrap64, INT64_MIN, INT64_MAX.
  pose proof (Z.mod_pos_bound (z + 2 ^ 63) (2 ^ 64) ltac:(lia)).
  rewrite andb_true_iff, !Z.leb_le. lia.
Qed.

Lemma wrap64_add_l a b : wrap64 (wrap64 a + b) = wrap64 (a + b).
Proof.
  unfold wrap64.
  replace ((a + 2 ^ 63) mod 2 ^ 64 - 2 ^ 63 + b + 2 ^ 63)
    with ((a + 2 ^ 63) mod 2 ^ 64 + b) by ring.
  rewrite Z.add_mod_idemp_l by lia.
  f_equal. f_equal. ring.
Qed.

(** What the compiled code computes: the exact value modulo 2^64. *)
Lemma micros_of_wrap ts : micros_of ts = wrap64 (exact_micros ts).
Proof.
  unfold micros_of, exact_micros, i64_add, i64_mul.
  apply wrap64_add_l.
Qed.

Lemma micros_of_exact ts :
  in_int64 (exact_micros ts) = true -> micros_of ts = exact_micros ts.
Proof. intros H. rewrite micros_of_wrap. now apply wrap64_id. Qed.

Lemma micros_of_in_range ts : in_int64 (micros_of ts) = true.
Proof. rewrite micros_of_wrap. apply wrap64_in_range. Qed.

(** ** Decimal conversion *)

Lemma digit_cases d : 0 <= d < 10 ->
  d = 0 \/ d = 1 \/ d = 2 \/ d = 3 \/ d = 4 \/ d = 5 \/ d = 6 \/ d = 7 \/ d = 8 \/ d = 9.
Proof. lia. Qed.

Lemma digit_char_ok d : 0 <= d < 10 ->
  is_digit (digit_char d) = true /\ digit_val (digit_char d) = d.
Proof.
  intros H; destruct (digit_cases d H) as [->|[->|[->|[->|[->|[->|[->|[->|[->| ->]]]]]]]]];
    split; reflexivity.
Qed.

Lemma digit_not_minus c : is_digit c = true -> Ascii.eqb c "-"%char = false.
Proof.
  intros H. destruct (Ascii.eqb_spec c "-"%char) as [->|]; [discriminate | reflexivity].
Qed.

Lemma mod10_range v : 0 <= v mod 10 < 10.
Proof. apply Z.mod_pos_bound; lia. Qed.

Lemma pow10_S (k : nat) : 10 ^ Z.of_nat (S k) = 10 * 10 ^ Z.of_nat k.
Proof. rewrite Nat2Z.inj_succ, Z.pow_succ_r by lia. ring. Qed.

(** Reading back what the conversion loop wrote. *)
Lemma utoa_parse f v acc :
  0 <= v < 10 ^ Z.of_nat f ->
  parse_digits (utoa f v acc) 0 = parse_digits acc v.
Proof.
  revert v acc; induction f as [|f IH]; intros v acc Hv.
  - cbn [utoa]. replace v with 0 by (simpl in Hv; lia). reflexivity.
  - pose proof (mod10_range v) as Hm.
    destruct (digit_char_ok (v mod 10) Hm) as [Hd Hval].
    cbn [utoa]. destruct (Z.ltb_spec v 10) as [Hlt|Hge].
    + cbn [parse_digits]. rewrite Hd, Hval. rewrite Z.mod_small by lia. reflexivity.
    + rewrite pow10_S in Hv.
      rewrite IH by (split; [apply Z.div_pos; lia | apply Z.div_lt_upper_bound; lia]).
      cbn [parse_digits]. rewrite Hd, Hval.
      f_equal. pose proof (Z.div_mod v 10 ltac:(lia)). lia.
Qed.

Lemma utoa_length f v acc (k : nat) :
  (1 <= k)%nat -> 0 <= v < 10 ^ Z.of_nat k ->
  (String.length (utoa f v acc) <= k + String.length acc)%nat.
Proof.
  revert v acc k; induction f as [|f IH]; intros v acc k Hk Hv.
  - cbn [utoa]. lia.
  - cbn [utoa]. destruct (Z.ltb_spec v 10) as [Hlt|Hge].
    + cbn [String.length]. lia.
    + destruct k as [|[|k]]; [lia| change (10 ^ Z.of_nat 1) with 10 in Hv; lia |].
      rewrite pow10_S in Hv.
      assert (H : (String.length (utoa f (v / 10) (String (digit_char (v mod 10)) acc))
                   <= S k + String.length (String (digit_char (v mod 10)) acc))%nat).
      { apply IH; [lia | split; [apply Z.div_pos; lia | apply Z.div_lt_upper_bound; lia]]. }
      cbn [String.length] in H. lia.
Qed.

Lemma utoa_all_digits f v acc :
  0 <= v -> all_digits acc = true -> all_digits (utoa f v acc) = true.
Proof.
  revert v acc; induction f as [|f IH]; intros v acc Hv Hacc; [exact Hacc|].
  destruct (digit_char_ok (v mod 10) (mod10_range v)) as [Hd _].
  cbn [utoa]. destruct (Z.ltb_spec v 10).
  - cbn [all_digits]. now rewrite Hd, Hacc.
  - apply IH; [apply Z.div_pos; lia | cbn [all_digits]; now rewrite Hd, Hacc].
Qed.

Lemma utoa_nonempty f v acc : acc <> EmptyString -> utoa f v acc <> EmptyString.
Proof.
  revert v acc; induction f as [|f IH]; intros v acc Hacc; [exact Hacc|].
  cbn [utoa]. destruct (v <? 10); [discriminate | apply IH; discriminate].
Qed.

(** The fuel of [udigits] is enough: [v < 2^(log2 v + 1) <= 10^(log2 v + 1)]. *)
Lemma udigits_fuel v : 0 <= v -> v < 10 ^ Z.of_nat (S (Z.to_nat (Z.log2 v))).
Proof.
  intros Hv.
  rewrite Nat2Z.inj_succ, Z2Nat.id by apply Z.log2_nonneg.
  apply Z.lt_le_trans with (2 ^ Z.succ (Z.log2 v)).
  - destruct (Z.eq_dec v 0) as [->|Hne]; [reflexivity|].
    apply Z.log2_spec; lia.
  - apply Z.pow_le_mono_l. lia.
Qed.

Lemma udigits_parse v : 0 <= v -> parse_digits (udigits v) 0 = Some v.
Proof.
  intros Hv. unfold udigits. rewrite utoa_parse; [reflexivity|].
  split; [exact Hv | now apply udigits_fuel].
Qed.

Lemma udigits_decimal v : 0 <= v -> is_decimal_nonneg (udigits v) = true.
Proof.
  intros Hv. unfold udigits. cbn [utoa].
  destruct (digit_char_ok (v mod 10) (mod10_range v)) as [Hd _].
  destruct (v <? 10).
  - cbn [is_decimal_nonneg all_digits]. now rewrite Hd.
  - destruct (utoa (Z.to_nat (Z.log2 v)) (v / 10) (String (digit_char (v mod 10)) ""))
      eqn:E.
    + exfalso. revert E. apply utoa_nonempty. discriminate.
    + change (all_digits (String a s) = true). rewrite <- E. apply utoa_all_digits;
        [apply Z.div_pos; lia | cbn [all_digits]; now rewrite Hd].
Qed.

Lemma decimal_head s : is_decimal_nonneg s = true ->
  exists c r, s = String c r /\ is_digit c = true.
Proof.
  destruct s as [|c r]; [discriminate|]. cbn [is_decimal_nonneg all_digits].
  rewrite andb_true_iff. intros [H _]. eauto.
Qed.

Lemma udigits_length v (k : nat) :
  (1 <= k)%nat -> 0 <= v < 10 ^ Z.of_nat k -> (String.length (udigits v) <= k)%nat.
Proof.
  intros Hk Hv. unfold udigits.
  pose proof (utoa_length (S (Z.to_nat (Z.log2 v))) v "" k Hk Hv) as H.
  cbn [String.length] in H. lia.
Qed.

(** [%lld] output is read back by [parse_lld] to the same 64-bit value. *)
Lemma parse_lld_lld z : in_int64 z = true -> parse_lld (lld z) = Some z.
Proof.
  intros Hz. unfold lld. destruct (Z.ltb_spec z 0) as [Hneg|Hpos].
  - destruct (decimal_head (udigits (- z)) (udigits_decimal (- z) ltac:(lia)))
      as (c & r & Hcr & _).
    unfold parse_lld. change (Ascii.eqb "-"%char "-"%char) with true. cbv iota beta.
    rewrite Hcr, <- Hcr, udigits_parse by lia.
    rewrite Z.opp_involutive, Hz. reflexivity.
  - destruct (decimal_head (udigits z) (udigits_decimal z Hpos)) as (c & r & Hcr & Hc).
    unfold parse_lld. rewrite Hcr, (digit_not_minus c Hc), <- Hcr, udigits_parse by lia.
    now rewrite Hz.
Qed.

Lemma lld_length z : in_int64 z = true -> (String.length (lld z) <= 20)%nat.
Proof.
  unfold in_int64, INT64_MIN, INT64_MAX.
  rewrite andb_true_iff, !Z.leb_le. intros [H1 H2].
  assert (H10 : 10 ^ Z.of_nat 19 = 10000000000000000000) by reflexivity.
  unfold lld. destruct (Z.ltb_spec z 0).
  - cbn [String.length].
    pose proof (udigits_length (- z) 19 ltac:(lia) ltac:(rewrite H10; lia)). lia.
  - pose proof (udigits_length z 19 ltac:(lia) ltac:(rewrite H10; lia)). lia.
Qed.

Lemma substring_whole s n : (String.length s <= n)%nat -> substring 0 n s = s.
Proof.
  revert n; induction s as [|c s IH]; intros n Hn.
  - destruct n; reflexivity.
  - destruct n as [|n]; cbn [String.length] in Hn; [lia|].
    cbn [substring]. f_equal. apply IH. lia.
Qed.

(** ** The paths of [clock_gettime_main] *)

Lemma main_usage plat argc argv w : (2 < argc)%nat ->
  clock_gettime_main plat argc argv w =
  (EXECUTION_FAILURE,
   mk_world (w_stdout w) (app (w_stderr w) ["clock_gettime: too many arguments"])
            (w_vars w) (w_clock_reads w) (w_argv_frees w)).
Proof.
  intros H. unfold clock_gettime_main.
  destruct (Nat.ltb_spec 2 argc); [reflexivity | lia].
Qed.

Lemma main_unsupported argc argv w : (argc <= 2)%nat ->
  clock_gettime_main NoProcessCpuClock argc argv w =
  (EXECUTION_FAILURE,
   mk_world (w_stdout w)
            (app (w_stderr w) ["clock_gettime is not supported on this system."])
            (w_vars w) (w_clock_reads w) (S (w_argv_frees w))).
Proof.
  intros H. unfold clock_gettime_main.
  destruct (Nat.ltb_spec 2 argc); [lia | reflexivity].
Qed.

Lemma main_clock_fail err argc argv w : (argc <= 2)%nat ->
  clock_gettime_main (ProcessCpuClock (ClockFail err)) argc argv w =
  (EXECUTION_FAILURE,
   mk_world (w_stdout w) (app (w_stderr w) ["clock_gettime failed: " ++ err])
            (w_vars w) (S (w_clock_reads w)) (S (w_argv_frees w))).
Proof.
  intros H. unfold clock_gettime_main.
  destruct (Nat.ltb_spec 2 argc); [lia | reflexivity].
Qed.

Lemma main_clock_ok ts argc argv w : (argc <= 2)%nat ->
  clock_gettime_main (ProcessCpuClock (ClockOk ts)) argc argv w =
  (EXECUTION_SUCCESS,
   match varname_of argc argv with
   | Some v =>
       mk_world (w_stdout w) (w_stderr w) ((v, snprintf 32 (lld (micros_of ts))) :: w_vars w)
                (S (w_clock_reads w)) (w_argv_frees w)
   | None =>
       mk_world (w_stdout w ++ lld (micros_of ts) ++ newline) (w_stderr w) (w_vars w)
                (S (w_clock_reads w)) (w_argv_frees w)
   end).
Proof.
  intros H. unfold clock_gettime_main.
  destruct (Nat.ltb_spec 2 argc); [lia|].
  destruct (varname_of argc argv); reflexivity.
Qed.

(** The dispatcher on the name [clock_gettime]: [clock_gettime_main] on
    [argv = "clock_gettime" :: words], then [xfree (argv)]. *)
Lemma timep_clock_gettime plat words w :
  timep_builtin plat "clock_gettime" words w =
  (fst (clock_gettime_main plat (S (List.length words)) ("clock_gettime" :: words) w),
   let w' := snd (clock_gettime_main plat (S (List.length words)) ("clock_gettime" :: words) w) in
   mk_world (w_stdout w') (w_stderr w') (w_vars w') (w_clock_reads w') (S (w_argv_frees w'))).
Proof.
  unfold timep_builtin, make_builtin_argv, bind, ret, xfree_argv, modify.
  change (String.eqb (nth 0 ("clock_gettime" :: words) "") "clock_gettime") with true.
  cbv iota beta.
  destruct (clock_gettime_main plat (S (List.length words)) ("clock_gettime" :: words) w).
  reflexivity.
Qed.

Lemma varname_of_nonempty a0 var :
  var <> "" -> is_c_string var = true -> varname_of 2 [a0; var] = Some var.
Proof.
  intros Hvar Hc. unfold varname_of. destruct var as [|c r]; [congruence|].
  cbn [is_c_string] in Hc. apply andb_true_iff in Hc as [Hc _].
  cbn [nth first_char Nat.eqb andb]. now rewrite Hc.
Qed.

(** A 64-bit value always fits the 32-byte buffer of [snprintf]. *)
Lemma snprintf_lld_whole z : in_int64 z = true -> snprintf 32 (lld z) = lld z.
Proof.
  intros Hz. unfold snprintf. apply substring_whole.
  pose proof (lld_length z Hz). cbn. lia.
Qed.

Lemma timep_unknown plat cmd words w :
  cmd <> "clock_gettime" ->
  timep_builtin plat cmd words w =
  (EXECUTION_FAILURE,
   mk_world (w_stdout w) (app (w_stderr w) ["timep: unknown command '" ++ cmd ++ "'"])
            (w_vars w) (w_clock_reads w) (S (w_argv_frees w))).
Proof.
  intros H. unfold timep_builtin, make_builtin_argv.
  cbn [nth]. apply String.eqb_neq in H. rewrite H. reflexivity.
Qed.

Lemma varname_of_some a0 words v :
  varname_of (S (List.length words)) (a0 :: words) = Some v -> words = [v].
Proof.
  unfold varname_of.
  destruct words as [|x [|y rest]]; cbn [List.length Nat.eqb andb].
  - discriminate.
  - destruct (negb _); [cbn; congruence | discriminate].
  - discriminate.
Qed.

(** ** Claims *)

(** C1 (as claimed: the emitted value is always [tv_sec * 1000000 +
    tv_nsec / 1000]) fails for a large [tv_sec]: with [tv_sec = 10^13] the
    exact value [10^19] exceeds [INT64_MAX] and the printed number is not
    it. *)
Lemma C1_counterexample :
  let ts := mk_timespec 10000000000000 0 in
  exact_micros ts = 10000000000000000000 /\
  w_stdout (snd (clock_gettime_main (ProcessCpuClock (ClockOk ts)) 1 ["clock_gettime"]
                  empty_world))
  = "-8446744073709551616" ++ newline.
Proof. vm_compute. split; reflexivity. Qed.

(** C1 (amended): when [tv_sec * 1000000] and
    [tv_sec * 1000000 + tv_nsec / 1000] (C division, truncating toward
    zero) lie in the 64-bit signed range, the computed [int64_t] value is
    exactly that sum, and it is what an invocation without argument prints. *)
Theorem C1_micros_exact ts :
  in_int64 (tv_sec ts * 1000000) = true ->
  in_int64 (tv_sec ts * 1000000 + Z.quot (tv_nsec ts) 1000) = true ->
  micros_of ts = tv_sec ts * 1000000 + Z.quot (tv_nsec ts) 1000 /\
  forall a0 w,
    w_stdout (snd (clock_gettime_main (ProcessCpuClock (ClockOk ts)) 1 [a0] w))
    = w_stdout w ++ lld (tv_sec ts * 1000000 + Z.quot (tv_nsec ts) 1000) ++ newline.
Proof.
  intros _ Hexact.
  assert (Hm : micros_of ts = tv_sec ts * 1000000 + Z.quot (tv_nsec ts) 1000)
    by (apply micros_of_exact; exact Hexact).
  split; [exact Hm|].
  intros a0 w. rewrite main_clock_ok by lia. cbn [snd varname_of Nat.eqb andb w_stdout].
  now rewrite Hm.
Qed.

Lemma C1_micros_exact_witness :
  in_int64 (3 * 1000000) = true /\
  in_int64 (3 * 1000000 + Z.quot 456789123 1000) = true /\
  micros_of (mk_timespec 3 456789123) = 3456789.
Proof.
  split; [reflexivity|]. split; [reflexivity|].
  destruct (C1_micros_exact (mk_timespec 3 456789123)) as [H _];
    [reflexivity | reflexivity |].
  rewrite H. reflexivity.
Defined.

(** C2: with two or more positional arguments the invocation fails with
    the usage diagnostic; the clock is not read, nothing is printed and no
    variable is bound. *)
Theorem C2_too_many_arguments plat words w :
  (2 <= List.length words)%nat ->
  let (r, w') := timep_builtin plat "clock_gettime" words w in
  r = EXECUTION_FAILURE /\
  w_clock_reads w' = w_clock_reads w /\
  w_stdout w' = w_stdout w /\
  w_vars w' = w_vars w /\
  w_stderr w' = app (w_stderr w) ["clock_gettime: too many arguments"].
Proof.
  intros H. rewrite timep_clock_gettime, main_usage by lia.
  cbn. repeat split.
Qed.

Lemma C2_too_many_arguments_witness :
  (2 <= List.length ["a"; "b"])%nat /\
  fst (timep_builtin (ProcessCpuClock (ClockOk (mk_timespec 1 0))) "clock_gettime"
         ["a"; "b"] empty_world) = EXECUTION_FAILURE.
Proof.
  split; [cbn; lia|].
  pose proof (C2_too_many_arguments (ProcessCpuClock (ClockOk (mk_timespec 1 0)))
                ["a"; "b"] empty_world ltac:(cbn; lia)) as H.
  destruct (timep_builtin _ _ _ _) as [r w'].
  destruct H as [Hr _]. exact Hr.
Defined.

(** C3 (code_bug): the argument vector built by [make_builtin_argv] is
    passed to [xfree] once on the success and usage-error paths, but twice
    when [clock_gettime] fails or the clock is unsupported:
    [clock_gettime_main] frees it there and [timep_builtin] frees it again
    after the call returns. *)
Theorem C3_argv_double_free :
  w_argv_frees (snd (timep_builtin (ProcessCpuClock (ClockFail "Invalid argument"))
                       "clock_gettime" [] empty_world)) = 2%nat /\
  w_argv_frees (snd (timep_builtin NoProcessCpuClock "clock_gettime" [] empty_world)) = 2%nat /\
  w_argv_frees (snd (timep_builtin (ProcessCpuClock (ClockOk (mk_timespec 0 5000)))
                       "clock_gettime" [] empty_world)) = 1%nat /\
  w_argv_frees (snd (timep_builtin (ProcessCpuClock (ClockOk (mk_timespec 0 5000)))
                       "clock_gettime" ["a"; "b"] empty_world)) = 1%nat.
Proof. vm_compute. repeat split. Qed.

(** C4: [clock_gettime_main] returns [EXECUTION_SUCCESS] exactly when at
    most one positional argument is given and the clock read succeeds, and
    [EXECUTION_FAILURE] exactly for too many arguments, an unsupported
    clock, or a failing system call; on failure one diagnostic goes to
    [builtin_error] (standard output untouched), reading
    [clock_gettime failed: <strerror(errno)>] for a failing call and
    [clock_gettime is not supported on this system.] without the clock. *)
Theorem C4_status_and_diagnostics plat argv w :
  let (r, w') := clock_gettime_main plat (List.length argv) argv w in
  (r = EXECUTION_SUCCESS <->
     (List.length argv <= 2)%nat /\ exists ts, plat = ProcessCpuClock (ClockOk ts)) /\
  (r = EXECUTION_FAILURE <->
     (2 < List.length argv)%nat \/ plat = NoProcessCpuClock \/
     exists err, plat = ProcessCpuClock (ClockFail err)) /\
  (r = EXECUTION_FAILURE ->
     w_stdout w' = w_stdout w /\
     exists msg, w_stderr w' = app (w_stderr w) [msg] /\
       ((List.length argv <= 2)%nat ->
          (plat = NoProcessCpuClock -> msg = "clock_gettime is not supported on this system.") /\
          (forall err, plat = ProcessCpuClock (ClockFail err) ->
             msg = "clock_gettime failed: " ++ err))).
Proof.
  destruct (Nat.ltb_spec 2 (List.length argv)) as [Hmany|Hok].
  - rewrite main_usage by exact Hmany. cbn [w_stdout w_stderr].
    unfold EXECUTION_FAILURE, EXECUTION_SUCCESS.
    split; [split; [discriminate | lia]|].
    split; [split; [intros _; now left | intros _; reflexivity]|].
    intros _. split; [reflexivity|]. eexists; split; [reflexivity | lia].
  - destruct plat as [|[ts|err]].
    + rewrite main_unsupported by exact Hok. cbn [w_stdout w_stderr].
      unfold EXECUTION_FAILURE, EXECUTION_SUCCESS.
      split; [split; [discriminate | intros [_ [ts H]]; discriminate]|].
      split; [split; [intros _; right; now left | intros _; reflexivity]|].
      intros _. split; [reflexivity|]. eexists; split; [reflexivity|].
      intros _. split; [reflexivity | intros err H; discriminate].
    + rewrite main_clock_ok by exact Hok.
      unfold EXECUTION_FAILURE, EXECUTION_SUCCESS.
      split; [split; [intros _; split; [exact Hok | eauto] | reflexivity]|].
      split; [split; [discriminate | intros [H|[H|[err H]]]; [lia | discriminate | discriminate]]|].
      discriminate.
    + rewrite main_clock_fail by exact Hok. cbn [w_stdout w_stderr].
      unfold EXECUTION_FAILURE, EXECUTION_SUCCESS.
      split; [split; [discriminate | intros [_ [ts H]]; discriminate]|].
      split; [split; [intros _; right; right; eauto | intros _; reflexivity]|].
      intros _. split; [reflexivity|]. eexists; split; [reflexivity|].
      intros _. split; [discriminate | intros err' H; injection H as ->; reflexivity].
Qed.

(** C5: a single empty argument behaves as no argument at all, for every
    clock outcome; after a successful read the value is printed followed by
    a newline and no variable is bound. *)
Theorem C5_empty_argument_prints plat w :
  timep_builtin plat "clock_gettime" [""] w = timep_builtin plat "clock_gettime" [] w /\
  forall ts,
    timep_builtin (ProcessCpuClock (ClockOk ts)) "clock_gettime" [""] w =
    (EXECUTION_SUCCESS,
     mk_world (w_stdout w ++ lld (micros_of ts) ++ newline) (w_stderr w) (w_vars w)
              (S (w_clock_reads w)) (S (w_argv_frees w))).
Proof.
  split.
  - rewrite !timep_clock_gettime. cbn [List.length].
    destruct plat as [|[ts|err]].
    + now rewrite !main_unsupported by lia.
    + rewrite !main_clock_ok by lia. reflexivity.
    + now rewrite !main_clock_fail by lia.
  - intros ts. rewrite timep_clock_gettime. cbn [List.length].
    rewrite main_clock_ok by lia. reflexivity.
Qed.

(** C6: with one non-empty argument [VAR] (a C string: no NUL byte) and a
    successful read, the full decimal string of the value is bound to
    [VAR], nothing is printed, and the status is [EXECUTION_SUCCESS]. *)
Theorem C6_assigns_variable ts var w :
  var <> "" -> is_c_string var = true ->
  let (r, w') := timep_builtin (ProcessCpuClock (ClockOk ts)) "clock_gettime" [var] w in
  r = EXECUTION_SUCCESS /\
  w_vars w' = (var, lld (micros_of ts)) :: w_vars w /\
  var_lookup var (w_vars w') = Some (lld (micros_of ts)) /\
  w_stdout w' = w_stdout w.
Proof.
  intros Hvar Hc. rewrite timep_clock_gettime. cbn [List.length].
  rewrite main_clock_ok by lia.
  rewrite (varname_of_nonempty "clock_gettime" var Hvar Hc).
  rewrite (snprintf_lld_whole _ (micros_of_in_range ts)).
  cbn [fst snd w_vars w_stdout var_lookup].
  rewrite String.eqb_refl. repeat split.
Qed.

Lemma C6_assigns_variable_witness :
  "RESULT" <> "" /\ is_c_string "RESULT" = true /\
  w_vars (snd (timep_builtin (ProcessCpuClock (ClockOk (mk_timespec 2 7000)))
                 "clock_gettime" ["RESULT"] empty_world)) = [("RESULT", "2000007")].
Proof.
  split; [discriminate|]. split; [reflexivity|].
  pose proof (C6_assigns_variable (mk_timespec 2 7000) "RESULT" empty_world
                ltac:(discriminate) eq_refl) as H.
  destruct (timep_builtin _ _ _ _) as [r w'].
  destruct H as (_ & Hv & _). cbn [snd]. rewrite Hv. reflexivity.
Defined.

(** C7 (as claimed: a reading with [tv_sec >= 0] and [tv_nsec] in
    [0, 10^9) always yields a non-negative decimal string) fails for
    [tv_sec = 10^13]: the 64-bit product overflows and a negative number is
    printed. *)
Lemma C7_counterexample :
  let ts := mk_timespec 10000000000000 0 in
  w_stdout (snd (timep_builtin (ProcessCpuClock (ClockOk ts)) "clock_gettime" [] empty_world))
  = "-8446744073709551616" ++ newline /\
  is_decimal_nonneg "-8446744073709551616" = false.
Proof. vm_compute. split; reflexivity. Qed.

(** C7 (amended): for a valid invocation (at most one positional argument)
    whose reading has [tv_sec >= 0], [0 <= tv_nsec < 10^9] and
    [tv_sec * 1000000 + tv_nsec / 1000 <= INT64_MAX], the printed (before
    the newline) or assigned string is a non-negative decimal integer that
    parses back to the computed [int64_t] value, which is the exact sum. *)
Theorem C7_nonneg_decimal_roundtrip ts words w :
  (List.length words <= 1)%nat ->
  0 <= tv_sec ts -> 0 <= tv_nsec ts < 1000000000 ->
  exact_micros ts <= INT64_MAX ->
  let (r, w') := timep_builtin (ProcessCpuClock (ClockOk ts)) "clock_gettime" words w in
  r = EXECUTION_SUCCESS /\
  exists e,
    (w_stdout w' = w_stdout w ++ e ++ newline \/
     exists v, w_vars w' = (v, e) :: w_vars w) /\
    is_decimal_nonneg e = true /\
    parse_lld e = Some (micros_of ts) /\
    micros_of ts = exact_micros ts.
Proof.
  intros Hlen Hs Hn Hmax.
  assert (Hq : 0 <= c_div (tv_nsec ts) 1000)
    by (unfold c_div; apply Z.quot_pos; lia).
  assert (Hrange : in_int64 (exact_micros ts) = true).
  { unfold in_int64, exact_micros, INT64_MIN in *. rewrite andb_true_iff, !Z.leb_le. lia. }
  pose proof (micros_of_exact ts Hrange) as Hm.
  assert (He : is_decimal_nonneg (lld (micros_of ts)) = true).
  { rewrite Hm. unfold lld. destruct (Z.ltb_spec (exact_micros ts) 0).
    - unfold exact_micros in *. lia.
    - apply udigits_decimal. lia. }
  pose proof (parse_lld_lld _ (micros_of_in_range ts)) as Hp.
  rewrite timep_clock_gettime, main_clock_ok by lia.
  cbn [fst snd w_stdout w_vars].
  split; [reflexivity|].
  destruct (varname_of (S (List.length words)) ("clock_gettime" :: words)) as [v|].
  - exists (lld (micros_of ts)). cbn [w_stdout w_vars].
    rewrite (snprintf_lld_whole _ (micros_of_in_range ts)).
    split; [right; eauto | auto].
  - exists (lld (micros_of ts)). cbn [w_stdout w_vars].
    split; [left; reflexivity | auto].
Qed.

Lemma C7_nonneg_decimal_roundtrip_witness :
  let ts := mk_timespec 12 345678901 in
  (List.length ["T"] <= 1)%nat /\ 0 <= tv_sec ts /\ 0 <= tv_nsec ts < 1000000000 /\
  exact_micros ts <= INT64_MAX /\
  fst (timep_builtin (ProcessCpuClock (ClockOk ts)) "clock_gettime" ["T"] empty_world)
  = EXECUTION_SUCCESS.
Proof.
  cbv zeta.
  split; [cbn; lia|]. split; [cbn; lia|]. split; [cbn; lia|].
  split; [vm_compute; discriminate|].
  pose proof (C7_nonneg_decimal_roundtrip (mk_timespec 12 345678901) ["T"] empty_world
                ltac:(cbn; lia) ltac:(cbn; lia) ltac:(cbn; lia)
                ltac:(vm_compute; discriminate)) as H.
  destruct (timep_builtin _ _ _ _) as [r w'].
  destruct H as [Hr _]. exact Hr.
Defined.

(** C8 (as claimed: the conversion is monotone for every pair of readings
    with [tv_nsec] in [0, 10^9)) fails at the top of the 64-bit range: the
    later reading's sum overflows and converts to a smaller value. *)
Lemma C8_counterexample :
  let ts1 := mk_timespec 9223372036854 0 in
  let ts2 := mk_timespec 9223372036854 999999999 in
  timespec_le ts1 ts2 = true /\ micros_of ts2 < micros_of ts1.
Proof. vm_compute. split; reflexivity. Qed.

(** C8 (amended): for readings with [tv_nsec] in [0, 10^9) whose products
    [tv_sec * 1000000] and sums [tv_sec * 1000000 + tv_nsec / 1000] lie in
    the 64-bit signed range, a lexicographically smaller or equal reading
    converts to a smaller or equal value. *)
Theorem C8_monotone ts1 ts2 :
  0 <= tv_nsec ts1 < 1000000000 -> 0 <= tv_nsec ts2 < 1000000000 ->
  timespec_le ts1 ts2 = true ->
  in_int64 (tv_sec ts1 * 1000000) = true -> in_int64 (exact_micros ts1) = true ->
  in_int64 (tv_sec ts2 * 1000000) = true -> in_int64 (exact_micros ts2) = true ->
  micros_of ts1 <= micros_of ts2.
Proof.
  intros Hn1 Hn2 Hle _ He1 _ He2.
  rewrite (micros_of_exact ts1 He1), (micros_of_exact ts2 He2).
  unfold exact_micros, c_div.
  rewrite !Z.quot_div_nonneg by lia.
  assert (Hq1 : 0 <= tv_nsec ts1 / 1000 < 1000000)
    by (split; [apply Z.div_pos | apply Z.div_lt_upper_bound]; lia).
  assert (Hq2 : 0 <= tv_nsec ts2 / 1000 < 1000000)
    by (split; [apply Z.div_pos | apply Z.div_lt_upper_bound]; lia).
  unfold timespec_le in Hle. apply orb_true_iff in Hle as [Hlt|Heq].
  - apply Z.ltb_lt in Hlt. nia.
  - apply andb_true_iff in Heq as [Hs Hn]. apply Z.eqb_eq in Hs. apply Z.leb_le in Hn.
    rewrite Hs. apply Z.add_le_mono_l. apply Z.div_le_mono; lia.
Qed.

Lemma C8_monotone_witness :
  let ts1 := mk_timespec 5 999999999 in
  let ts2 := mk_timespec 6 0 in
  0 <= tv_nsec ts1 < 1000000000 /\ 0 <= tv_nsec ts2 < 1000000000 /\
  timespec_le ts1 ts2 = true /\ micros_of ts1 <= micros_of ts2.
Proof.
  cbv zeta.
  split; [cbn; lia|]. split; [cbn; lia|]. split; [reflexivity|].
  apply C8_monotone; [cbn; lia | cbn; lia | reflexivity | reflexivity | reflexivity
                     | reflexivity | reflexivity].
Defined.

(** C9: the [%lld] text of every 64-bit value, with its terminator, fits
    the 32-byte buffer, so [snprintf] stores it whole. *)
Theorem C9_buffer_fits z :
  in_int64 z = true ->
  (String.length (lld z) + 1 <= 32)%nat /\ snprintf 32 (lld z) = lld z.
Proof.
  intros Hz. split.
  - pose proof (lld_length z Hz). lia.
  - now apply snprintf_lld_whole.
Qed.

Lemma C9_buffer_fits_witness :
  in_int64 INT64_MIN = true /\ snprintf 32 (lld INT64_MIN) = "-9223372036854775808".
Proof.
  split; [reflexivity|].
  destruct (C9_buffer_fits INT64_MIN eq_refl) as [_ H]. rewrite H. vm_compute. reflexivity.
Defined.

(** C10: a command name other than [clock_gettime] in [argv[0]] gets the
    unknown-command diagnostic and [EXECUTION_FAILURE]; the clock is not
    read, nothing is printed and no variable is bound. *)
Theorem C10_unknown_command plat cmd words w :
  cmd <> "clock_gettime" ->
  timep_builtin plat cmd words w =
  (EXECUTION_FAILURE,
   mk_world (w_stdout w) (app (w_stderr w) ["timep: unknown command '" ++ cmd ++ "'"])
            (w_vars w) (w_clock_reads w) (S (w_argv_frees w))).
Proof.
  intros H. unfold timep_builtin, make_builtin_argv.
  cbn [nth]. apply String.eqb_neq in H. rewrite H. reflexivity.
Qed.

Lemma C10_unknown_command_witness :
  "timep" <> "clock_gettime" /\
  fst (timep_builtin (ProcessCpuClock (ClockOk (mk_timespec 1 0))) "timep" [] empty_world)
  = EXECUTION_FAILURE.
Proof.
  split; [discriminate|].
  rewrite (C10_unknown_command (ProcessCpuClock (ClockOk (mk_timespec 1 0))) "timep" []
             empty_world ltac:(discriminate)).
  reflexivity.
Defined.

(** ** Further properties of the code *)

Ltac timep_cases plat cmd words :=
  destruct (String.eqb_spec cmd "clock_gettime") as [->|Hcmd];
  [ rewrite timep_clock_gettime;
    destruct (Nat.ltb_spec 2 (S (List.length words))) as [Hmany|Hok];
    [ rewrite main_usage by exact Hmany
    | destruct plat as [|[ts|err]];
      [ rewrite main_unsupported by exact Hok
      | rewrite main_clock_ok by exact Hok;
        destruct (varname_of (S (List.length words)) ("clock_gettime" :: words))
          as [v|] eqn:Hv
      | rewrite main_clock_fail by exact Hok ] ]
  | rewrite timep_unknown by exact Hcmd ];
  cbn [fst snd w_stdout w_stderr w_vars w_clock_reads w_argv_frees].

(** X1: the [%lld] text of every 64-bit value, negative ones included,
    reads back as that value. *)
Theorem X1_lld_roundtrip z : in_int64 z = true -> parse_lld (lld z) = Some z.
Proof. apply parse_lld_lld. Qed.

Lemma X1_lld_roundtrip_witness :
  in_int64 (-42) = true /\ parse_lld (lld (-42)) = Some (-42).
Proof. split; [reflexivity | apply X1_lld_roundtrip; reflexivity]. Defined.


(** X3: an invocation reads the process CPU-time clock once when it is
    invoked as [clock_gettime] with at most one argument on a build that
    has the clock, and otherwise not at all. *)
Theorem X3_clock_read_once plat cmd words w :
  w_clock_reads (snd (timep_builtin plat cmd words w)) =
  (w_clock_reads w +
   if String.eqb cmd "clock_gettime" && (List.length words <=? 1)%nat && has_process_clock plat
   then 1 else 0)%nat.
Proof.
  timep_cases plat cmd words;
    cbn [has_process_clock]; rewrite ?String.eqb_refl;
    try (apply String.eqb_neq in Hcmd; rewrite Hcmd);
    try (destruct (Nat.leb_spec (List.length words) 1); [lia|]);
    try (destruct (Nat.leb_spec (List.length words) 1); [|lia]);
    cbn; lia.
Qed.

(** X4: an invocation changes the value of no variable other than its
    sole positional argument. *)
Theorem X4_other_variables_untouched plat cmd words w name :
  words <> [name] ->
  var_lookup name (w_vars (snd (timep_builtin plat cmd words w))) = var_lookup name (w_vars w).
Proof.
  intros Hw. timep_cases plat cmd words; try reflexivity.
  apply varname_of_some in Hv. subst words.
  cbn [var_lookup]. destruct (String.eqb_spec v name) as [->|]; [congruence | reflexivity].
Qed.

Lemma X4_other_variables_untouched_witness :
  ["RESULT"] <> ["HOME"] /\
  var_lookup "HOME"
    (w_vars (snd (timep_builtin (ProcessCpuClock (ClockOk (mk_timespec 1 0))) "clock_gettime"
                    ["RESULT"] (mk_world "" [] [("HOME", "/root")] 0 0))))
  = Some "/root".
Proof.
  split; [discriminate|].
  rewrite X4_other_variables_untouched by discriminate. reflexivity.
Defined.

(** X5: the value bound by [clock_gettime VAR] is the same text that
    [clock_gettime] without argument prints before its newline, for the
    same clock reading. *)
Theorem X5_assign_matches_print ts var w1 w2 :
  var <> "" -> is_c_string var = true ->
  exists e,
    var_lookup var
      (w_vars (snd (timep_builtin (ProcessCpuClock (ClockOk ts)) "clock_gettime" [var] w1)))
    = Some e /\
    w_stdout (snd (timep_builtin (ProcessCpuClock (ClockOk ts)) "clock_gettime" [] w2))
    = w_stdout w2 ++ e ++ newline.
Proof.
  intros Hvar Hc. exists (lld (micros_of ts)).
  rewrite !timep_clock_gettime. cbn [List.length].
  rewrite !main_clock_ok by lia.
  rewrite (varname_of_nonempty "clock_gettime" var Hvar Hc).
  rewrite (snprintf_lld_whole _ (micros_of_in_range ts)).
  cbn [fst snd w_vars w_stdout var_lookup varname_of Nat.eqb andb].
  rewrite String.eqb_refl. split; reflexivity.
Qed.

Lemma X5_assign_matches_print_witness :
  "T" <> "" /\ is_c_string "T" = true /\
  exists e,
    var_lookup "T"
      (w_vars (snd (timep_builtin (ProcessCpuClock (ClockOk (mk_timespec 0 999)))
                      "clock_gettime" ["T"] empty_world))) = Some e /\
    w_stdout (snd (timep_builtin (ProcessCpuClock (ClockOk (mk_timespec 0 999)))
                     "clock_gettime" [] empty_world)) = "" ++ e ++ newline.
Proof.
  split; [discriminate|]. split; [reflexivity|].
  exact (X5_assign_matches_print (mk_timespec 0 999) "T" empty_world empty_world
           ltac:(discriminate) eq_refl).
Defined.

(** X6: for a normalised, non-negative reading whose value fits in 64
    bits, the result is the CPU time in whole microseconds, rounded down:
    [(tv_sec * 10^9 + tv_nsec) / 1000]. *)
Theorem X6_micros_floor ts :
  0 <= tv_sec ts -> 0 <= tv_nsec ts < 1000000000 -> exact_micros ts <= INT64_MAX ->
  micros_of ts = (tv_sec ts * 1000000000 + tv_nsec ts) / 1000.
Proof.
  intros Hs Hn Hmax.
  assert (Hq : 0 <= c_div (tv_nsec ts) 1000)
    by (unfold c_div; apply Z.quot_pos; lia).
  rewrite micros_of_exact.
  - unfold exact_micros, c_div. rewrite Z.quot_div_nonneg by lia.
    replace (tv_sec ts * 1000000000) with ((tv_sec ts * 1000000) * 1000) by ring.
    rewrite Z.div_add_l by lia. reflexivity.
  - unfold in_int64, exact_micros, INT64_MIN in *. rewrite andb_true_iff, !Z.leb_le. lia.
Qed.

Lemma X6_micros_floor_witness :
  0 <= tv_sec (mk_timespec 7 5999) /\ 0 <= tv_nsec (mk_timespec 7 5999) < 1000000000 /\
  exact_micros (mk_timespec 7 5999) <= INT64_MAX /\
  micros_of (mk_timespec 7 5999) = 7000005.
Proof.
  split; [cbn; lia|]. split; [cbn; lia|]. split; [vm_compute; discriminate|].
  rewrite X6_micros_floor by (cbn; lia || (vm_compute; discriminate)). reflexivity.
Defined.

(** X7: after [setup_builtin_timep] the name [clock_gettime] finds
    [clock_gettime_struct], whose function, run under that name, always
    reaches [clock_gettime_main] (never the unknown-command branch) and
    then frees [argv]; the setup returns 0. *)
Theorem X7_registered_name_dispatches plat table words w :
  snd (setup_builtin_timep table) = 0 /\
  exists m,
    run_builtin plat (fst (setup_builtin_timep table)) "clock_gettime" words = Some m /\
    m w =
    (fst (clock_gettime_main plat (S (List.length words)) ("clock_gettime" :: words) w),
     let w' := snd (clock_gettime_main plat (S (List.length words)) ("clock_gettime" :: words) w) in
     mk_world (w_stdout w') (w_stderr w') (w_vars w') (w_clock_reads w') (S (w_argv_frees w'))).
Proof.
  split; [reflexivity|].
  eexists. split; [reflexivity|].
  cbn [b_function clock_gettime_struct]. apply timep_clock_gettime.
Qed.
